(** * News client: query URLs, filter form and view states

    A shallow embedding of the Angular news client:
    - [ApiService] (service/api-service/api-service.ts): the URLs that
      [getAllNews] and [getNews] hand to [HttpClient.get];
    - [NewsPage] (components/NewsPage/NewsPage.ts): the filter form, the
      [newsList] signal and the subscriptions that fill it;
    - [NewsDetailsPage]: the [news] signal keyed by the route parameter.

    [HttpClient] and the remote API are not part of the client; they are
    taken as a parameter (a function from request URL to the single
    notification of the returned observable). *)

From Stdlib Require Import List String Ascii Bool Arith ZArith.
Import ListNotations.
Local Open Scope list_scope.
Local Open Scope string_scope.

Set Implicit Arguments.

(** ** JavaScript helpers used by the source *)

Module JS.

(** [Array.prototype.join] on an array of strings. *)
Fixpoint join (sep : string) (xs : list string) : string :=
  match xs with
  | [] => ""
  | [x] => x
  | x :: rest => x ++ sep ++ join sep rest
  end.

(** Truthiness of a string: only the empty string is falsy. *)
Definition truthy (s : string) : bool :=
  match s with
  | EmptyString => false
  | String _ _ => true
  end.

(** [s !== ''] *)
Definition nonempty (s : string) : bool := negb (String.eqb s "").

(** [x || d] on a value that may be [null]; arrays are always truthy,
    the empty one included. *)
Definition orArray {A} (x : option (list A)) (d : list A) : list A :=
  match x with
  | Some l => l
  | None => d
  end.

(** [x || false] on a boolean that may be [null]. *)
Definition orFalse (x : option bool) : bool :=
  match x with
  | Some b => (b || false)%bool
  | None => false
  end.

(** [t !== tag] on strings. *)
Definition strictNeq (t tag : string) : bool := negb (String.eqb t tag).

End JS.

(** ** The data model (type declarations of api-service.ts) *)

Record News : Type := mkNews {
  id : string;
  title : string;
  content : string;
  tags : list string;
  createdAt : string;
  hotnessScore : Z;          (* carried only, the client never computes on it *)
  isConfirmed : bool;
  sources : list string;
  timeline : option (list string)
}.

(** ** HttpClient and the remote API, as seen by the client

    [http.get<T>(url)] returns a cold observable: subscribing sends the
    request, and the observable then delivers exactly one notification,
    either the body cast to [T] ([next]) or an [HttpErrorResponse]
    ([error]: no connection, a non-2xx status, a body that fails to parse). *)

Module Http.

Record HttpErrorResponse : Type := mkError { status : Z }.

Inductive Notification (A : Type) : Type :=
| Next (a : A)
| Error (e : HttpErrorResponse).
Arguments Next {A} a.
Arguments Error {A} e.

(** What the remote API answers to a [GET], per response type. *)
Record Client : Type := mkClient {
  getList : string -> Notification (list News);
  getItem : string -> Notification News
}.

(** The answer to a lookup that has no match. *)
Definition NotFound : HttpErrorResponse := mkError 404.

End Http.

(** ** ApiService *)

Module ApiService.

Definition baseUrl : string := "http://158.160.195.186/api".

(** The object literal accepted by [getAllNews]. *)
Record Filters : Type := mkFilters {
  f_tags : list string;
  f_onlyVerified : bool
}.

Definition tagsString (tags : list string) : string :=
  if (0 <? List.length tags)%nat then "tags=" ++ JS.join "," tags else "".

Definition verifiedString (onlyVerified : bool) : string :=
  if onlyVerified then "onlyConfirmed=true" else "".

Definition queryParams (tags : list string) (onlyVerified : bool) : string :=
  JS.join "&"
    (List.filter JS.nonempty [tagsString tags; verifiedString onlyVerified]).

(** The URL [getAllNews] passes to [http.get]. *)
Definition getAllNews_url (filters : option Filters) : string :=
  let apiUrl := baseUrl ++ "/news" in
  match filters with
  | None => apiUrl
  | Some f =>
      let tags := JS.orArray (Some (f_tags f)) [] in
      let onlyVerified := (f_onlyVerified f || false)%bool in
      let q := queryParams tags onlyVerified in
      apiUrl ++ (if JS.truthy q then "?" ++ q else "")
  end.

(** The URL [getNews] passes to [http.get]. *)
Definition getNews_url (id : string) : string :=
  baseUrl ++ "/news/" ++ id.

(** [getAllNews] and [getNews] return the observable of [http.get]
    untouched: no [pipe], no [catchError], no decoding besides the cast. *)
Definition getAllNews (http : Http.Client) (filters : option Filters)
  : Http.Notification (list News) :=
  Http.getList http (getAllNews_url filters).

Definition getNews (http : Http.Client) (id : string)
  : Http.Notification News :=
  Http.getItem http (getNews_url id).

End ApiService.

(** ** NewsPage *)

Module NewsPage.

(** [filtersForm]: the value of a [FormControl<T>] is [T | null]. *)
Record FormGroup : Type := mkForm {
  selectedTags : option (list string);
  onlyConfirmed : option bool
}.

(** The component's fields, and the URLs of the requests whose
    subscription (with the callback [news => newsList.set(news)]) has
    not been notified yet, oldest first. *)
Record State : Type := mkState {
  newsList : option (list News);
  filtersForm : FormGroup;
  subscriptions : list string
}.

(** The field initialisers. *)
Definition init : State :=
  mkState None (mkForm (Some []) (Some false)) [].

(** The thirteen labels offered by the page. *)
Definition tags : list string :=
  [ "Информационные технологии"; "Металлы и добыча";
    "Макроэкономические показатели"; "Нефть и газ";
    "Потребительский сектор"; "Строительные компании";
    "Телекоммуникации"; "Транспорт"; "Финансы"; "Финтех";
    "Фармацевтика"; "Химия и нефтехимия"; "Электроэнергетика" ].

Definition subscribe (url : string) (s : State) : State :=
  mkState (newsList s) (filtersForm s) (subscriptions s ++ [url])%list.

Definition setSelectedTags (v : list string) (s : State) : State :=
  mkState (newsList s)
          (mkForm (Some v) (onlyConfirmed (filtersForm s)))
          (subscriptions s).

(** [this.filtersForm.get('selectedTags')?.value || []] *)
Definition currentTags (s : State) : list string :=
  JS.orArray (selectedTags (filtersForm s)) [].

Definition ngOnInit (s : State) : State :=
  subscribe (ApiService.getAllNews_url None) s.

Definition onTagChange (tag : string) (isChecked : bool) (s : State) : State :=
  let currentTags := currentTags s in
  if isChecked then
    setSelectedTags (currentTags ++ [tag])%list s
  else
    setSelectedTags (List.filter (fun t => JS.strictNeq t tag) currentTags) s.

Definition onFiltersSubmit (s : State) : State :=
  let tags := currentTags s in
  let onlyVerified := JS.orFalse (onlyConfirmed (filtersForm s)) in
  subscribe
    (ApiService.getAllNews_url (Some (ApiService.mkFilters tags onlyVerified)))
    s.

(** Removal of the [k]-th element. *)
Fixpoint dropAt {A} (k : nat) (l : list A) : list A :=
  match l, k with
  | [], _ => []
  | _ :: rest, O => rest
  | x :: rest, S k' => x :: dropAt k' rest
  end.

(** The [k]-th pending subscription is notified with [n] and ends. The
    subscriber has a [next] callback only: an [error] reaches no code
    of the component. *)
Definition notify (k : nat) (n : Http.Notification (list News)) (s : State)
  : State :=
  match nth_error (subscriptions s) k with
  | None => s
  | Some _ =>
      let rest := dropAt k (subscriptions s) in
      match n with
      | Http.Next news => mkState (Some news) (filtersForm s) rest
      | Http.Error _ => mkState (newsList s) (filtersForm s) rest
      end
  end.

Inductive Event : Type :=
| NgOnInit
| OnTagChange (tag : string) (isChecked : bool)
| OnFiltersSubmit
| Notify (k : nat) (n : Http.Notification (list News)).

Definition step (s : State) (e : Event) : State :=
  match e with
  | NgOnInit => ngOnInit s
  | OnTagChange tag isChecked => onTagChange tag isChecked s
  | OnFiltersSubmit => onFiltersSubmit s
  | Notify k n => notify k n s
  end.

Definition run (evs : list Event) (s : State) : State :=
  List.fold_left step evs s.

(** The remote API answers the [k]-th pending request. *)
Definition respond (http : Http.Client) (k : nat) (s : State) : State :=
  match nth_error (subscriptions s) k with
  | None => s
  | Some url => notify k (Http.getList http url) s
  end.

(** A sequence of checkbox events [(tag, isChecked)]. *)
Definition toggles (ops : list (string * bool)) (s : State) : State :=
  List.fold_left (fun st op => onTagChange (fst op) (snd op) st) ops s.

(** Every check in [ops] hits a tag that is not selected at that
    moment, as a checkbox that starts unchecked and alternates does. *)
Fixpoint checksFresh (ops : list (string * bool)) (s : State) : bool :=
  match ops with
  | [] => true
  | (tag, isChecked) :: rest =>
      (if isChecked
       then negb (List.existsb (String.eqb tag) (currentTags s))
       else true)
      && checksFresh rest (onTagChange tag isChecked s)
  end.

(** The three list states of the specification, read off the fields:
    data held; no data and a request in flight; no data and none. *)
Inductive ViewState : Type :=
| Empty
| Loading
| Populated (items : list News).

Definition viewState (s : State) : ViewState :=
  match newsList s with
  | Some items => Populated items
  | None =>
      match subscriptions s with
      | [] => Empty
      | _ :: _ => Loading
      end
  end.

End NewsPage.

(** ** NewsDetailsPage *)

Module NewsDetailsPage.

Record State : Type := mkState {
  newsId : option string;
  news : option News;
  subscriptions : list string
}.

Definition init : State := mkState None None [].

(** [param] is [route.snapshot.paramMap.get('id')]. *)
Definition ngOnInit (param : option string) (s : State) : State :=
  let s1 := mkState param (news s) (subscriptions s) in
  match param with
  | Some id =>
      if JS.truthy id then
        mkState param (news s)
                (subscriptions s ++ [ApiService.getNews_url id])%list
      else s1
  | None => s1
  end.

(** The subscriber sets [news] and logs the item; the log is not
    modelled. An [error] reaches no code of the component. *)
Definition notify (k : nat) (n : Http.Notification News) (s : State) : State :=
  match nth_error (subscriptions s) k with
  | None => s
  | Some _ =>
      let rest := NewsPage.dropAt k (subscriptions s) in
      match n with
      | Http.Next item => mkState (newsId s) (Some item) rest
      | Http.Error _ => mkState (newsId s) (news s) rest
      end
  end.

(** After activation only notifications reach the component. *)
Definition run (ns : list (nat * Http.Notification News)) (s : State) : State :=
  List.fold_left (fun st kn => notify (fst kn) (snd kn) st) ns s.

(** The remote API answers the [k]-th pending request. *)
Definition respond (http : Http.Client) (k : nat) (s : State) : State :=
  match nth_error (subscriptions s) k with
  | None => s
  | Some url => notify k (Http.getItem http url) s
  end.

Inductive ViewState : Type :=
| Empty
| Loading
| Populated (item : News).

Definition viewState (s : State) : ViewState :=
  match news s with
  | Some item => Populated item
  | None =>
      match subscriptions s with
      | [] => Empty
      | _ :: _ => Loading
      end
  end.

End NewsDetailsPage.

(** ** Fixtures

    The five items an earlier [NewsPage] carried as its hard-coded
    [newsList], and a stand-in for the remote API that serves a given
    collection: the unfiltered list under [{baseUrl}/news], an item under
    the URL [getNews] builds for its [id], and 404 for anything else. *)

Module Fixture.

Definition item1 : News :=
  mkNews "1"
    "Запуск новой версии искусственного интеллекта от ведущей компании"
    "Сегодня состоялся релиз обновленной версии ИИ-системы, которая демонстрирует революционные возможности в обработке естественного языка и генерации контента."
    ["технологии"; "искусственный интеллект"; "инновации"]
    "2024-01-15T10:30:00.000Z"
    100%Z true
    ["https://technews.com/ai-launch"; "https://innovation.org/update"]
    (Some ["2024-01-10T09:00:00.000Z"; "2024-01-14T15:20:00.000Z"]).

Definition item2 : News :=
  mkNews "2"
    "Прорыв в квантовых вычислениях: достигнута новая веха"
    "Ученые объявили о значительном прогрессе в области квантовых компьютеров, увеличив стабильность кубитов в 5 раз по сравнению с предыдущими показателями."
    ["наука"; "квантовые вычисления"; "технологии"]
    "2024-01-14T14:45:00.000Z"
    88%Z true
    ["https://sciencejournal.org/quantum"; "https://research.edu/breakthrough"]
    None.

Definition item3 : News :=
  mkNews "3"
    "Кибератака на крупный финансовый институт: детали инцидента"
    "В результате сложной кибератаки пострадали системы одного из крупнейших банков. Эксперты работают над восстановлением и расследованием происшествия."
    ["кибербезопасность"; "финансы"; "происшествия"]
    "2024-01-15T08:15:00.000Z"
    50%Z false
    ["https://securitywatch.com/incident"; "https://finance-news.net/attack"]
    (Some ["2024-01-14T22:30:00.000Z"; "2024-01-15T02:45:00.000Z"; "2024-01-15T07:00:00.000Z"]).

Definition item4 : News :=
  mkNews "4"
    "Революционное открытие в медицине: новый метод лечения онкологии"
    "Исследовательская группа представила инновационный подход к терапии раковых заболеваний, показавший эффективность 85% в клинических испытаниях."
    ["медицина"; "онкология"; "здоровье"]
    "2024-01-13T11:20:00.000Z"
    32%Z true
    ["https://medicalbreakthroughs.org/cancer"; "https://health-research.edu/therapy"]
    None.

Definition item5 : News :=
  mkNews "5"
    "Климатический саммит: мировые лидеры договорились о новых обязательствах"
    "По итогам экстренного климатического саммита принята резолюция с конкретными целями по сокращению выбросов и переходу на зеленую энергетику."
    ["экология"; "политика"; "климат"]
    "2024-01-15T16:00:00.000Z"
    84%Z true
    ["https://climate-news.net/summit"; "https://global-politics.org/agreement"]
    (Some ["2024-01-14T10:00:00.000Z"; "2024-01-15T09:30:00.000Z"]).

Definition newsList : list News := [item1; item2; item3; item4; item5].

Definition client (items : list News) : Http.Client :=
  Http.mkClient
    (fun url =>
       if String.eqb url (ApiService.getAllNews_url None)
       then Http.Next items
       else Http.Error Http.NotFound)
    (fun url =>
       match List.find
               (fun n => String.eqb url (ApiService.getNews_url (id n)))
               items with
       | Some n => Http.Next n
       | None => Http.Error Http.NotFound
       end).

End Fixture.

(** ** The remote API behind [getNews] *)

Module Remote.

(** The rest of [s] after the prefix [p], when [s] starts with [p]. *)
Fixpoint stripPrefix (p s : string) : option string :=
  match p, s with
  | EmptyString, _ => Some s
  | String a p', String b s' =>
      if Ascii.eqb a b then stripPrefix p' s' else None
  | String _ _, EmptyString => None
  end.

(** The route of the single-item lookup, written out: the fixed origin
    with [/news/] in front of the identifier. *)
Definition itemRoute : string := "http://158.160.195.186/api/news/".

(** Modelled from the spec: the remote REST API and the HTTP transport in
    front of it, which are the remote collaborator and are not under src/.
    Section 6: [GET {baseUrl}/news/{id}] answers the single NewsItem, or a
    not-found response; sections 3 and 7: the collaborator assigns the
    identifiers, and NotFound is the single-item lookup that has no match.
    The collaborator holds [items]; it reads the identifier off the request
    URL by the route above and answers the item that bears it, and
    NotFound when no item does or the URL is not on the route. *)
Definition getItem (items : list News) (url : string)
  : Http.Notification News :=
  match stripPrefix itemRoute url with
  | Some ident =>
      match List.find (fun n => String.eqb (id n) ident) items with
      | Some n => Http.Next n
      | None => Http.Error Http.NotFound
      end
  | None => Http.Error Http.NotFound
  end.

End Remote.

(** ** Vocabulary of the further properties *)

(** The character [c] occurs in [s]. *)
Fixpoint hasChar (c : ascii) (s : string) : bool :=
  match s with
  | EmptyString => false
  | String d rest => Ascii.eqb c d || hasChar c rest
  end.

(** A tag free of the two separators of the query string. *)
Definition plainTag (t : string) : bool :=
  negb (hasChar "," t) && negb (hasChar "&" t).

(** The checkbox events among the events of the page. *)
Fixpoint togglesOf (evs : list NewsPage.Event) : list (string * bool) :=
  match evs with
  | [] => []
  | NewsPage.OnTagChange tag isChecked :: rest =>
      (tag, isChecked) :: togglesOf rest
  | _ :: rest => togglesOf rest
  end.

(** Checking each tag of [ts] in turn. *)
Definition checkAll (ts : list string) : list (string * bool) :=
  List.map (fun t => (t, true)) ts.

(** * Properties *)

(** ** Strings and lists *)

Lemma append_inj_l (p a b : string) : p ++ a = p ++ b -> a = b.
Proof.
  induction p as [|c p IH]; simpl; intros H.
  - exact H.
  - injection H as H. auto.
Qed.

Lemma append_empty_r (a : string) : a ++ "" = a.
Proof. induction a as [|c a IH]; simpl; [reflexivity | now rewrite IH]. Qed.

Lemma append_length (a b : string) :
  String.length (a ++ b) = String.length a + String.length b.
Proof. induction a as [|c a IH]; simpl; [reflexivity | now rewrite IH]. Qed.

Lemma strictNeq_refl (tag : string) : JS.strictNeq tag tag = false.
Proof. unfold JS.strictNeq. now rewrite String.eqb_refl. Qed.

Lemma strictNeq_true (t tag : string) : JS.strictNeq t tag = true <-> t <> tag.
Proof.
  unfold JS.strictNeq. rewrite negb_true_iff.
  destruct (String.eqb_spec t tag); split; congruence.
Qed.

Lemma filter_strictNeq_absent (tag : string) (l : list string) :
  ~ In tag l -> List.filter (fun t => JS.strictNeq t tag) l = l.
Proof.
  induction l as [|x l IH]; simpl; intros Hn.
  - reflexivity.
  - assert (Hx : JS.strictNeq x tag = true).
    { apply strictNeq_true. intros ->. apply Hn. now left. }
    rewrite Hx. f_equal. apply IH. intros Hin. apply Hn. now right.
Qed.

Lemma filter_strictNeq_not_In (tag : string) (l : list string) :
  ~ In tag (List.filter (fun t => JS.strictNeq t tag) l).
Proof.
  intros Hin. apply filter_In in Hin. destruct Hin as [_ H].
  now rewrite strictNeq_refl in H.
Qed.

Lemma NoDup_snoc (x : string) (l : list string) :
  NoDup l -> ~ In x l -> NoDup (l ++ [x])%list.
Proof.
  induction 1 as [|y l Hy Hl IH]; simpl; intros Hx.
  - constructor; [intros [] | constructor].
  - constructor.
    + rewrite in_app_iff. intros [H | [H | []]]; [contradiction | subst].
      apply Hx. now left.
    + apply IH. intros H. apply Hx. now right.
Qed.

Lemma dropAt_last {A} (l : list A) (x : A) :
  NewsPage.dropAt (List.length l) (l ++ [x])%list = l.
Proof. induction l as [|y l IH]; simpl; [reflexivity | now rewrite IH]. Qed.

Lemma nth_error_last {A} (l : list A) (x : A) :
  nth_error (l ++ [x])%list (List.length l) = Some x.
Proof. induction l as [|y l IH]; simpl; [reflexivity | exact IH]. Qed.

(** ** The URLs of [ApiService] *)

(** The parameters that survive [.filter((param) => param !== '')]. *)
Lemma present_params (tags : list string) (onlyVerified : bool) :
  List.filter JS.nonempty
    [ApiService.tagsString tags; ApiService.verifiedString onlyVerified]
  = List.app
      (match tags with
       | [] => []
       | _ :: _ => ["tags=" ++ JS.join "," tags]
       end)
      (if onlyVerified then ["onlyConfirmed=true"] else []).
Proof.
  destruct tags as [|t ts]; destruct onlyVerified; reflexivity.
Qed.

Lemma getAllNews_url_cases (tags : list string) (onlyVerified : bool) :
  ApiService.getAllNews_url (Some (ApiService.mkFilters tags onlyVerified))
  = ApiService.baseUrl ++ "/news"
    ++ match tags, onlyVerified with
       | [], false => ""
       | [], true => "?onlyConfirmed=true"
       | _ :: _, false => "?tags=" ++ JS.join "," tags
       | _ :: _, true => "?tags=" ++ JS.join "," tags ++ "&onlyConfirmed=true"
       end.
Proof.
  unfold ApiService.getAllNews_url, ApiService.queryParams.
  cbv zeta. rewrite present_params.
  destruct tags as [|t ts]; destruct onlyVerified; try reflexivity.
Qed.

Lemma getNews_url_eqb (a b : string) :
  String.eqb (ApiService.getNews_url a) (ApiService.getNews_url b)
  = String.eqb a b.
Proof.
  destruct (String.eqb_spec a b) as [-> | Hne].
  - apply String.eqb_refl.
  - apply String.eqb_neq. intros H. apply Hne.
    exact (append_inj_l "http://158.160.195.186/api/news/" a b H).
Qed.

(** C3. For every filter whose tag sequence is non-empty, the URL built by
    [getAllNews] carries a [tags=] parameter whose value is the tags joined
    by commas in the order of the sequence (followed by [&onlyConfirmed=true]
    exactly when the flag is set); selecting "Финансы" then "Финтех" on a
    fresh page and submitting, the flag left false, requests
    [{baseUrl}/news?tags=Финансы,Финтех]. *)
Theorem getAllNews_tags_joined_in_order
    (tags : list string) (onlyVerified : bool) :
  tags <> [] ->
  ApiService.getAllNews_url (Some (ApiService.mkFilters tags onlyVerified))
  = ApiService.baseUrl ++ "/news?tags=" ++ JS.join "," tags
    ++ (if onlyVerified then "&onlyConfirmed=true" else "")
  /\ NewsPage.subscriptions
       (NewsPage.run
          [NewsPage.OnTagChange "Финансы" true;
           NewsPage.OnTagChange "Финтех" true;
           NewsPage.OnFiltersSubmit]
          NewsPage.init)
     = [ApiService.baseUrl ++ "/news?tags=Финансы,Финтех"].
Proof.
  intros Hne. split; [| reflexivity].
  rewrite getAllNews_url_cases.
  destruct tags as [|t ts]; [congruence |].
  destruct onlyVerified; [reflexivity |].
  now rewrite append_empty_r.
Qed.

Lemma getAllNews_tags_joined_in_order_witness :
  ["a"; "b"; "c"] <> []
  /\ ApiService.getAllNews_url
       (Some (ApiService.mkFilters ["a"; "b"; "c"] true))
     = "http://158.160.195.186/api/news?tags=a,b,c&onlyConfirmed=true".
Proof.
  split; [discriminate |].
  exact (proj1 (@getAllNews_tags_joined_in_order ["a"; "b"; "c"] true
                  ltac:(discriminate))).
Defined.

(** C4. For every filter with an empty tag sequence and [onlyVerified]
    false, [getAllNews] builds [{baseUrl}/news] with no query string, the
    very URL (and so the very request) of a call without a filter. *)
Theorem getAllNews_empty_filter_is_unfiltered (f : ApiService.Filters) :
  ApiService.f_tags f = [] ->
  ApiService.f_onlyVerified f = false ->
  ApiService.getAllNews_url (Some f) = ApiService.baseUrl ++ "/news"
  /\ ApiService.getAllNews_url (Some f) = ApiService.getAllNews_url None
  /\ forall http : Http.Client,
       ApiService.getAllNews http (Some f) = ApiService.getAllNews http None.
Proof.
  destruct f as [tags onlyVerified]; simpl. intros -> ->.
  assert (E : ApiService.getAllNews_url
                (Some (ApiService.mkFilters [] false))
              = ApiService.getAllNews_url None) by reflexivity.
  split; [reflexivity | split; [exact E |]].
  intros http. unfold ApiService.getAllNews. now rewrite E.
Qed.

Lemma getAllNews_empty_filter_is_unfiltered_witness :
  ApiService.getAllNews_url (Some (ApiService.mkFilters [] false))
  = "http://158.160.195.186/api/news".
Proof.
  exact (proj1 (@getAllNews_empty_filter_is_unfiltered
                  (ApiService.mkFilters [] false) eq_refl eq_refl)).
Defined.

(** C5. For every filter passed to [getAllNews]: the [tags] parameter is
    serialised exactly when the tag sequence is non-empty,
    [onlyConfirmed=true] exactly when [onlyVerified] is true, an empty or
    false parameter leaves no trace in the URL, and two parameters are
    joined by one ampersand. *)
Theorem getAllNews_params_present_iff (f : ApiService.Filters) :
  List.filter JS.nonempty
    [ApiService.tagsString (ApiService.f_tags f);
     ApiService.verifiedString (ApiService.f_onlyVerified f)]
  = List.app
      (match ApiService.f_tags f with
       | [] => []
       | _ :: _ => ["tags=" ++ JS.join "," (ApiService.f_tags f)]
       end)
      (if ApiService.f_onlyVerified f then ["onlyConfirmed=true"] else [])
  /\ ApiService.getAllNews_url (Some f)
     = ApiService.baseUrl ++ "/news"
       ++ match ApiService.f_tags f, ApiService.f_onlyVerified f with
          | [], false => ""
          | [], true => "?onlyConfirmed=true"
          | _ :: _, false =>
              "?tags=" ++ JS.join "," (ApiService.f_tags f)
          | _ :: _, true =>
              "?tags=" ++ JS.join "," (ApiService.f_tags f)
              ++ "&" ++ "onlyConfirmed=true"
          end.
Proof.
  destruct f as [tags onlyVerified].
  cbn [ApiService.f_tags ApiService.f_onlyVerified]. split.
  - apply present_params.
  - rewrite getAllNews_url_cases. destruct tags, onlyVerified; reflexivity.
Qed.

(** C10. For every string [id], [getNews] requests the fixed prefix
    [{baseUrl}/news/] followed by [id] itself, unescaped and unchecked: the
    URL is [id] longer than the prefix, two ids give the same URL only when
    they are equal, the empty id gives [{baseUrl}/news/], and a slash, a
    question mark or an ampersand in [id] appears as such in the path. *)
Theorem getNews_url_verbatim (id : string) :
  ApiService.getNews_url id = "http://158.160.195.186/api/news/" ++ id
  /\ String.length (ApiService.getNews_url id) = 32 + String.length id
  /\ (forall id' : string,
        String.eqb (ApiService.getNews_url id) (ApiService.getNews_url id')
        = String.eqb id id')
  /\ (forall http : Http.Client,
        ApiService.getNews http id
        = Http.getItem http ("http://158.160.195.186/api/news/" ++ id))
  /\ ApiService.getNews_url "" = "http://158.160.195.186/api/news/"
  /\ ApiService.getNews_url "a/b" = "http://158.160.195.186/api/news/a/b"
  /\ ApiService.getNews_url "3?x=1&y=2"
     = "http://158.160.195.186/api/news/3?x=1&y=2".
Proof.
  assert (E : forall i, ApiService.getNews_url i
                        = "http://158.160.195.186/api/news/" ++ i)
    by reflexivity.
  split; [apply E | split; [| split; [| repeat split]]].
  - rewrite E, append_length. reflexivity.
  - intros id'. apply getNews_url_eqb.
Qed.

(** ** The filter form of [NewsPage] *)

Lemma currentTags_check (tag : string) (s : NewsPage.State) :
  NewsPage.currentTags (NewsPage.onTagChange tag true s)
  = (NewsPage.currentTags s ++ [tag])%list.
Proof. reflexivity. Qed.

Lemma currentTags_uncheck (tag : string) (s : NewsPage.State) :
  NewsPage.currentTags (NewsPage.onTagChange tag false s)
  = List.filter (fun t => JS.strictNeq t tag) (NewsPage.currentTags s).
Proof. reflexivity. Qed.

Lemma existsb_eqb_false (tag : string) (l : list string) :
  List.existsb (String.eqb tag) l = false -> ~ In tag l.
Proof.
  intros H Hin.
  assert (E : List.existsb (String.eqb tag) l = true).
  { apply existsb_exists. exists tag. split; [exact Hin | apply String.eqb_refl]. }
  congruence.
Qed.

Lemma onTagChange_NoDup (tag : string) (isChecked : bool) (s : NewsPage.State) :
  NoDup (NewsPage.currentTags s) ->
  (isChecked = true -> ~ In tag (NewsPage.currentTags s)) ->
  NoDup (NewsPage.currentTags (NewsPage.onTagChange tag isChecked s)).
Proof.
  intros Hnd Hfresh. destruct isChecked.
  - rewrite currentTags_check. apply NoDup_snoc; auto.
  - rewrite currentTags_uncheck. now apply NoDup_filter.
Qed.

(** C1, as the code has it: checking a tag appends it to the selection
    whether or not it is there already, so the selection is free of
    duplicates after every sequence of toggles that starts from a
    duplicate-free selection and checks only tags that are absent at that
    moment. *)
Theorem toggles_fresh_NoDup (ops : list (string * bool)) (s : NewsPage.State) :
  NoDup (NewsPage.currentTags s) ->
  NewsPage.checksFresh ops s = true ->
  NoDup (NewsPage.currentTags (NewsPage.toggles ops s))
  /\ forall tag : string,
       NewsPage.currentTags (NewsPage.onTagChange tag true s)
       = (NewsPage.currentTags s ++ [tag])%list.
Proof.
  intros Hnd Hfresh. split; [| intros tag; apply currentTags_check].
  revert s Hnd Hfresh.
  induction ops as [|[tag isChecked] ops IH]; intros s Hnd Hfresh.
  - exact Hnd.
  - cbn [NewsPage.checksFresh] in Hfresh.
    apply andb_true_iff in Hfresh. destruct Hfresh as [Hhead Hrest].
    unfold NewsPage.toggles. cbn [List.fold_left fst snd].
    apply IH; [| exact Hrest].
    apply onTagChange_NoDup; [exact Hnd |].
    intros ->. apply existsb_eqb_false. now apply negb_true_iff.
Qed.

Lemma toggles_fresh_NoDup_witness :
  NoDup
    (NewsPage.currentTags
       (NewsPage.toggles
          [("Финансы", true); ("Финтех", true); ("Финансы", false);
           ("Финансы", true)]
          NewsPage.init)).
Proof.
  refine (proj1 (@toggles_fresh_NoDup
                   [("Финансы", true); ("Финтех", true); ("Финансы", false);
                    ("Финансы", true)]
                   NewsPage.init _ _)).
  - simpl. constructor.
  - vm_compute. reflexivity.
Defined.

(** C1, as the specification has it, fails: checking "Финансы" twice on a
    fresh page leaves it in the selection twice. *)
Lemma toggle_on_twice_duplicates :
  NewsPage.currentTags
    (NewsPage.toggles [("Финансы", true); ("Финансы", true)] NewsPage.init)
  = ["Финансы"; "Финансы"]
  /\ ~ NoDup
       (NewsPage.currentTags
          (NewsPage.toggles [("Финансы", true); ("Финансы", true)]
             NewsPage.init)).
Proof.
  split; [reflexivity |].
  intros H. apply NoDup_cons_iff in H. destruct H as [Hin _].
  apply Hin. left. reflexivity.
Qed.

(** The form value is never [null] on a page driven by its own methods. *)
Lemma step_selectedTags_array (s : NewsPage.State) (e : NewsPage.Event) :
  NewsPage.selectedTags (NewsPage.filtersForm s) <> None ->
  NewsPage.selectedTags (NewsPage.filtersForm (NewsPage.step s e)) <> None.
Proof.
  intros Hs. destruct e as [| tag [|] | | k n]; simpl; try exact Hs;
    try discriminate.
  unfold NewsPage.notify.
  destruct (nth_error (NewsPage.subscriptions s) k); [| exact Hs].
  destruct n; exact Hs.
Qed.

Lemma run_selectedTags_array (evs : list NewsPage.Event) :
  NewsPage.selectedTags
    (NewsPage.filtersForm (NewsPage.run evs NewsPage.init)) <> None.
Proof.
  unfold NewsPage.run.
  assert (H0 : NewsPage.selectedTags (NewsPage.filtersForm NewsPage.init)
               <> None) by discriminate.
  revert H0. generalize NewsPage.init.
  induction evs as [|e evs IH]; intros s Hs; [exact Hs |].
  cbn [List.fold_left]. apply IH. now apply step_selectedTags_array.
Qed.

(** C9. For every state of the selection, unchecking [tag] keeps exactly
    the entries different from [tag], so [tag] is absent afterwards;
    unchecking a tag that is not selected leaves the selection as it was
    (and the whole component, the form value being an array), and
    unchecking twice is the same as unchecking once. *)
Theorem uncheck_removes_tag (tag : string) (s : NewsPage.State) :
  NewsPage.currentTags (NewsPage.onTagChange tag false s)
  = List.filter (fun t => JS.strictNeq t tag) (NewsPage.currentTags s)
  /\ ~ In tag (NewsPage.currentTags (NewsPage.onTagChange tag false s))
  /\ (forall t : string,
        t <> tag ->
        (In t (NewsPage.currentTags (NewsPage.onTagChange tag false s))
         <-> In t (NewsPage.currentTags s)))
  /\ (~ In tag (NewsPage.currentTags s) ->
      NewsPage.currentTags (NewsPage.onTagChange tag false s)
      = NewsPage.currentTags s)
  /\ (~ In tag (NewsPage.currentTags s) ->
      NewsPage.selectedTags (NewsPage.filtersForm s) <> None ->
      NewsPage.onTagChange tag false s = s)
  /\ NewsPage.onTagChange tag false (NewsPage.onTagChange tag false s)
     = NewsPage.onTagChange tag false s.
Proof.
  split; [reflexivity |].
  split; [rewrite currentTags_uncheck; apply filter_strictNeq_not_In |].
  split.
  { intros t Hne. rewrite currentTags_uncheck, filter_In.
    split; [tauto |]. intros Hin. split; [exact Hin |].
    now apply strictNeq_true. }
  split.
  { intros Habs. rewrite currentTags_uncheck.
    now apply filter_strictNeq_absent. }
  split.
  { destruct s as [nl [[sel|] oc] subs];
      [| intros _ H; exfalso; apply H; reflexivity].
    unfold NewsPage.onTagChange, NewsPage.currentTags, NewsPage.setSelectedTags.
    simpl. intros Habs _. now rewrite filter_strictNeq_absent. }
  unfold NewsPage.onTagChange at 1 3.
  unfold NewsPage.setSelectedTags. rewrite currentTags_uncheck. simpl.
  rewrite filter_strictNeq_absent; [reflexivity |].
  apply filter_strictNeq_not_In.
Qed.

Lemma uncheck_removes_tag_witness :
  NewsPage.onTagChange "Транспорт" false
    (NewsPage.toggles [("Финансы", true); ("Финтех", true)] NewsPage.init)
  = NewsPage.toggles [("Финансы", true); ("Финтех", true)] NewsPage.init.
Proof.
  refine (proj1 (proj2 (proj2 (proj2 (proj2
            (@uncheck_removes_tag "Транспорт"
               (NewsPage.toggles [("Финансы", true); ("Финтех", true)]
                  NewsPage.init)))))) _ _).
  - vm_compute. intros [H | [H | []]]; discriminate H.
  - vm_compute. discriminate.
Defined.

(** ** The list held by [NewsPage] *)

Lemma NewsPage_state_eta (s : NewsPage.State) :
  NewsPage.mkState (NewsPage.newsList s) (NewsPage.filtersForm s)
    (NewsPage.subscriptions s) = s.
Proof. destruct s; reflexivity. Qed.

Lemma notify_error_fields
    (k : nat) (e : Http.HttpErrorResponse) (s : NewsPage.State) :
  NewsPage.newsList (NewsPage.notify k (Http.Error e) s) = NewsPage.newsList s
  /\ NewsPage.filtersForm (NewsPage.notify k (Http.Error e) s)
     = NewsPage.filtersForm s.
Proof.
  unfold NewsPage.notify.
  destruct (nth_error (NewsPage.subscriptions s) k); split; reflexivity.
Qed.

Lemma notify_error_undoes_subscribe
    (url : string) (e : Http.HttpErrorResponse) (s : NewsPage.State) :
  NewsPage.notify (List.length (NewsPage.subscriptions s)) (Http.Error e)
    (NewsPage.subscribe url s) = s.
Proof.
  unfold NewsPage.notify, NewsPage.subscribe; simpl.
  rewrite nth_error_last, dropAt_last. apply NewsPage_state_eta.
Qed.

(** C6. For every state of [NewsPage] and every fetch that ends in an
    error, whatever the error: [newsList] (and the form) is what it was
    before the error arrived, so a populated list keeps its items and an
    empty one stays empty; a fetch issued by [ngOnInit] or
    [onFiltersSubmit] that then fails leaves the component exactly as it
    was before the fetch. *)
Theorem failed_fetch_keeps_list
    (s : NewsPage.State) (k : nat) (e : Http.HttpErrorResponse) :
  NewsPage.newsList (NewsPage.notify k (Http.Error e) s) = NewsPage.newsList s
  /\ NewsPage.filtersForm (NewsPage.notify k (Http.Error e) s)
     = NewsPage.filtersForm s
  /\ (forall items : list News,
        NewsPage.viewState s = NewsPage.Populated items ->
        NewsPage.viewState (NewsPage.notify k (Http.Error e) s)
        = NewsPage.Populated items)
  /\ (NewsPage.viewState s = NewsPage.Empty ->
      NewsPage.viewState (NewsPage.notify k (Http.Error e) s)
      = NewsPage.Empty)
  /\ (forall (http : Http.Client) (url : string),
        nth_error (NewsPage.subscriptions s) k = Some url ->
        Http.getList http url = Http.Error e ->
        NewsPage.newsList (NewsPage.respond http k s) = NewsPage.newsList s)
  /\ NewsPage.notify (List.length (NewsPage.subscriptions s)) (Http.Error e)
       (NewsPage.ngOnInit s) = s
  /\ NewsPage.notify (List.length (NewsPage.subscriptions s)) (Http.Error e)
       (NewsPage.onFiltersSubmit s) = s.
Proof.
  destruct (notify_error_fields k e s) as [Hlist Hform].
  split; [exact Hlist | split; [exact Hform |]].
  split.
  { intros items. unfold NewsPage.viewState. rewrite Hlist.
    destruct (NewsPage.newsList s); [auto |].
    destruct (NewsPage.subscriptions s); discriminate. }
  split.
  { unfold NewsPage.viewState at 1.
    destruct (NewsPage.newsList s) eqn:El; [discriminate |].
    destruct (NewsPage.subscriptions s) eqn:Es; [| discriminate].
    intros _. unfold NewsPage.notify. rewrite Es.
    destruct k; simpl; unfold NewsPage.viewState; now rewrite El, Es. }
  split.
  { intros http url Hk Herr. unfold NewsPage.respond.
    rewrite Hk, Herr. exact Hlist. }
  split; apply notify_error_undoes_subscribe.
Qed.

Lemma failed_fetch_keeps_list_witness :
  NewsPage.viewState
    (NewsPage.notify 0 (Http.Error (Http.mkError 500))
       (NewsPage.run
          [NewsPage.NgOnInit; NewsPage.Notify 0 (Http.Next Fixture.newsList);
           NewsPage.OnFiltersSubmit]
          NewsPage.init))
  = NewsPage.Populated Fixture.newsList.
Proof.
  refine (proj1 (proj2 (proj2
            (@failed_fetch_keeps_list
               (NewsPage.run
                  [NewsPage.NgOnInit;
                   NewsPage.Notify 0 (Http.Next Fixture.newsList);
                   NewsPage.OnFiltersSubmit]
                  NewsPage.init)
               0 (Http.mkError 500)))) Fixture.newsList _).
  reflexivity.
Defined.

(** C7. A constructed [NewsPage] holds no list and has no request in
    flight (Empty); [ngOnInit] at once puts the one request
    [GET {baseUrl}/news] in flight with still no list held (Loading); when
    the remote API answers that request with a sequence of items,
    [newsList] holds exactly that sequence and nothing is in flight
    (Populated). With the fixture API seeded with its five items those five
    are held, in order. *)
Theorem list_lifecycle (http : Http.Client) (items : list News) :
  Http.getList http (ApiService.baseUrl ++ "/news") = Http.Next items ->
  NewsPage.newsList NewsPage.init = None
  /\ NewsPage.viewState NewsPage.init = NewsPage.Empty
  /\ NewsPage.subscriptions (NewsPage.ngOnInit NewsPage.init)
     = [ApiService.baseUrl ++ "/news"]
  /\ NewsPage.newsList (NewsPage.ngOnInit NewsPage.init) = None
  /\ NewsPage.viewState (NewsPage.ngOnInit NewsPage.init) = NewsPage.Loading
  /\ NewsPage.respond http 0 (NewsPage.ngOnInit NewsPage.init)
     = NewsPage.mkState (Some items)
         (NewsPage.filtersForm NewsPage.init) []
  /\ NewsPage.viewState
       (NewsPage.respond http 0 (NewsPage.ngOnInit NewsPage.init))
     = NewsPage.Populated items
  /\ NewsPage.viewState
       (NewsPage.respond (Fixture.client Fixture.newsList) 0
          (NewsPage.ngOnInit NewsPage.init))
     = NewsPage.Populated
         [Fixture.item1; Fixture.item2; Fixture.item3; Fixture.item4;
          Fixture.item5].
Proof.
  intros Hget.
  assert (E : NewsPage.respond http 0 (NewsPage.ngOnInit NewsPage.init)
              = NewsPage.mkState (Some items)
                  (NewsPage.filtersForm NewsPage.init) []).
  { unfold NewsPage.respond, NewsPage.ngOnInit, NewsPage.subscribe,
      NewsPage.notify.
    cbn [NewsPage.subscriptions NewsPage.init List.app nth_error
         ApiService.getAllNews_url].
    rewrite Hget. reflexivity. }
  repeat (split; [reflexivity |]).
  split; [exact E |].
  split; [rewrite E; reflexivity | reflexivity].
Qed.

Lemma list_lifecycle_witness :
  NewsPage.respond (Fixture.client Fixture.newsList) 0
    (NewsPage.ngOnInit NewsPage.init)
  = NewsPage.mkState (Some Fixture.newsList)
      (NewsPage.filtersForm NewsPage.init) [].
Proof.
  refine (proj1 (proj2 (proj2 (proj2 (proj2 (proj2
            (@list_lifecycle (Fixture.client Fixture.newsList)
               Fixture.newsList _))))))).
  reflexivity.
Defined.

(** ** [NewsDetailsPage] and [getNews] *)

Lemma detail_notify_idle
    (k : nat) (n : Http.Notification News) (s : NewsDetailsPage.State) :
  NewsDetailsPage.subscriptions s = [] -> NewsDetailsPage.notify k n s = s.
Proof.
  intros Hs. unfold NewsDetailsPage.notify. rewrite Hs.
  destruct k; reflexivity.
Qed.

Lemma detail_run_idle
    (ns : list (nat * Http.Notification News)) (s : NewsDetailsPage.State) :
  NewsDetailsPage.subscriptions s = [] -> NewsDetailsPage.run ns s = s.
Proof.
  intros Hs. induction ns as [|[k n] ns IH]; [reflexivity |].
  unfold NewsDetailsPage.run in *. cbn [List.fold_left fst snd].
  rewrite detail_notify_idle; assumption.
Qed.

(** C8. When the route carries no [id], [ngOnInit] of [NewsDetailsPage]
    subscribes to nothing, and whatever notifications or answers are
    offered afterwards the component stays as activation left it: [news]
    absent, nothing in flight (Empty). *)
Theorem detail_without_id_stays_empty
    (ns : list (nat * Http.Notification News)) (http : Http.Client) (k : nat) :
  NewsDetailsPage.subscriptions
    (NewsDetailsPage.ngOnInit None NewsDetailsPage.init) = []
  /\ NewsDetailsPage.news
       (NewsDetailsPage.run ns
          (NewsDetailsPage.ngOnInit None NewsDetailsPage.init)) = None
  /\ NewsDetailsPage.subscriptions
       (NewsDetailsPage.run ns
          (NewsDetailsPage.ngOnInit None NewsDetailsPage.init)) = []
  /\ NewsDetailsPage.viewState
       (NewsDetailsPage.run ns
          (NewsDetailsPage.ngOnInit None NewsDetailsPage.init))
     = NewsDetailsPage.Empty
  /\ NewsDetailsPage.respond http k
       (NewsDetailsPage.run ns
          (NewsDetailsPage.ngOnInit None NewsDetailsPage.init))
     = NewsDetailsPage.ngOnInit None NewsDetailsPage.init.
Proof.
  assert (Hidle : NewsDetailsPage.subscriptions
                    (NewsDetailsPage.ngOnInit None NewsDetailsPage.init) = [])
    by reflexivity.
  rewrite (detail_run_idle ns _ Hidle).
  repeat (split; [reflexivity |]).
  unfold NewsDetailsPage.respond. rewrite Hidle. destruct k; reflexivity.
Qed.






(** * Further properties *)

(** ** Strings *)

Lemma append_assoc (a b c : string) : (a ++ b) ++ c = a ++ b ++ c.
Proof. induction a as [|x a IH]; simpl; [reflexivity | now rewrite IH]. Qed.

Lemma hasChar_append (c : ascii) (a b : string) :
  hasChar c (a ++ b) = hasChar c a || hasChar c b.
Proof.
  induction a as [|x a IH]; simpl; [reflexivity |].
  now rewrite IH, orb_assoc.
Qed.

(** Two strings free of [c] followed by [c] and a rest: the first
    occurrence of [c] cuts both at the same place. *)
Lemma cut_at_char (c : ascii) (a b x y : string) :
  hasChar c a = false -> hasChar c b = false ->
  a ++ String c x = b ++ String c y -> a = b /\ x = y.
Proof.
  revert b. induction a as [|d a IH]; intros [|d' b]; simpl; intros Ha Hb H.
  - injection H as H. now split.
  - injection H as Hc _. subst d'.
    now rewrite Ascii.eqb_refl in Hb.
  - injection H as Hc _. subst d.
    now rewrite Ascii.eqb_refl in Ha.
  - injection H as Hd H. subst d'.
    apply orb_false_iff in Ha, Hb.
    destruct (IH b (proj2 Ha) (proj2 Hb) H) as [-> ->]. now split.
Qed.

Lemma free_neq_containing (c : ascii) (a b y : string) :
  hasChar c a = false -> a <> b ++ String c y.
Proof.
  intros Ha ->. rewrite hasChar_append in Ha. simpl in Ha.
  rewrite Ascii.eqb_refl in Ha. simpl in Ha.
  now rewrite orb_true_r in Ha.
Qed.

Lemma join_cons_cons (sep t u : string) (r : list string) :
  JS.join sep (t :: u :: r) = t ++ sep ++ JS.join sep (u :: r).
Proof. reflexivity. Qed.

Lemma join_snoc_append (sep x t : string) (ts : list string) :
  JS.join sep (List.app ts [t ++ x]) = JS.join sep (List.app ts [t]) ++ x.
Proof.
  induction ts as [|a ts IH]; [reflexivity |].
  destruct ts as [|b ts].
  - simpl. now rewrite !append_assoc.
  - cbn [List.app] in *. rewrite !join_cons_cons, IH.
    now rewrite !append_assoc.
Qed.

Lemma hasChar_join (c : ascii) (sep : string) (ts : list string) :
  hasChar c sep = false ->
  List.forallb (fun t => negb (hasChar c t)) ts = true ->
  hasChar c (JS.join sep ts) = false.
Proof.
  intros Hsep. induction ts as [|t ts IH]; [reflexivity |].
  cbn [List.forallb]. intros H. apply andb_true_iff in H.
  destruct H as [Ht Hts]. apply negb_true_iff in Ht.
  destruct ts as [|u ts]; [exact Ht |].
  rewrite join_cons_cons, !hasChar_append, Ht, Hsep, (IH Hts).
  reflexivity.
Qed.

Lemma join_comma_inj (ts ts' : list string) :
  List.forallb (fun t => negb (hasChar "," t)) ts = true ->
  List.forallb (fun t => negb (hasChar "," t)) ts' = true ->
  ts <> [] -> ts' <> [] ->
  JS.join "," ts = JS.join "," ts' -> ts = ts'.
Proof.
  revert ts'. induction ts as [|t ts IH]; intros ts' Hts Hts' Hne Hne' H;
    [congruence |].
  destruct ts' as [|t' ts']; [congruence |].
  cbn [List.forallb] in Hts, Hts'.
  apply andb_true_iff in Hts, Hts'.
  destruct Hts as [Ht Hts], Hts' as [Ht' Hts'].
  apply negb_true_iff in Ht, Ht'.
  destruct ts as [|u ts], ts' as [|u' ts'].
  - simpl in H. now subst.
  - rewrite join_cons_cons in H. simpl in H.
    exfalso. exact (@free_neq_containing _ _ _ _ Ht H).
  - rewrite join_cons_cons in H. simpl in H.
    exfalso. exact (@free_neq_containing _ _ _ _ Ht' (eq_sym H)).
  - rewrite !join_cons_cons in H.
    destruct (@cut_at_char _ _ _ _ _ Ht Ht' H) as [-> HJ].
    f_equal. apply IH; [assumption | assumption | discriminate | discriminate |].
    exact HJ.
Qed.

Lemma forallb_plainTag (ts : list string) :
  List.forallb plainTag ts = true ->
  List.forallb (fun t => negb (hasChar "," t)) ts = true
  /\ List.forallb (fun t => negb (hasChar "&" t)) ts = true.
Proof.
  induction ts as [|t ts IH]; [now split |].
  cbn [List.forallb]. unfold plainTag at 1. intros H.
  apply andb_true_iff in H. destruct H as [Ht Hts].
  apply andb_true_iff in Ht. destruct Ht as [Hc Ha].
  destruct (IH Hts) as [IHc IHa].
  now rewrite Hc, Ha, IHc, IHa.
Qed.

Lemma news_prefix_inj (x y : string) :
  ApiService.baseUrl ++ "/news" ++ x = ApiService.baseUrl ++ "/news" ++ y ->
  x = y.
Proof. exact (append_inj_l "http://158.160.195.186/api/news" x y). Qed.

(** ** More on the URLs of [ApiService] *)

Lemma getAllNews_url_unfiltered_inv (tags : list string) (onlyVerified : bool) :
  ApiService.getAllNews_url (Some (ApiService.mkFilters tags onlyVerified))
  = ApiService.getAllNews_url None ->
  tags = [] /\ onlyVerified = false.
Proof.
  rewrite getAllNews_url_cases. intros H.
  assert (H' : match tags, onlyVerified with
               | [], false => ""
               | [], true => "?onlyConfirmed=true"
               | _ :: _, false => "?tags=" ++ JS.join "," tags
               | _ :: _, true =>
                   "?tags=" ++ JS.join "," tags ++ "&onlyConfirmed=true"
               end = "")
    by (apply news_prefix_inj; exact H).
  destruct tags, onlyVerified; try discriminate H'. now split.
Qed.

(** X1. A filter gives the URL of the unfiltered call only when it is the
    empty filter: the URLs are equal exactly when the tag sequence is empty
    and [onlyVerified] is false. *)
Theorem getAllNews_unfiltered_iff (f : ApiService.Filters) :
  ApiService.getAllNews_url (Some f) = ApiService.getAllNews_url None
  <-> ApiService.f_tags f = [] /\ ApiService.f_onlyVerified f = false.
Proof.
  destruct f as [tags onlyVerified].
  cbn [ApiService.f_tags ApiService.f_onlyVerified].
  split.
  - apply getAllNews_url_unfiltered_inv.
  - intros [-> ->]. reflexivity.
Qed.

Lemma getAllNews_unfiltered_iff_witness :
  ApiService.getAllNews_url (Some (ApiService.mkFilters [] false))
  = ApiService.getAllNews_url None.
Proof.
  exact (proj2 (getAllNews_unfiltered_iff (ApiService.mkFilters [] false))
           (conj eq_refl eq_refl)).
Defined.

(** X2. Tags are not escaped. A tag that contains a comma gives the URL of
    the two tags it splits into, and a last tag that ends in
    [&onlyConfirmed=true] gives the URL of the same filter with the flag
    set. *)
Theorem getAllNews_tags_not_escaped
    (t1 t2 : string) (rest ts : list string) (onlyVerified : bool) :
  ApiService.getAllNews_url
    (Some (ApiService.mkFilters ((t1 ++ "," ++ t2) :: rest) onlyVerified))
  = ApiService.getAllNews_url
      (Some (ApiService.mkFilters (t1 :: t2 :: rest) onlyVerified))
  /\ ApiService.getAllNews_url
       (Some (ApiService.mkFilters
                (List.app ts [t1 ++ "&onlyConfirmed=true"]) false))
     = ApiService.getAllNews_url
         (Some (ApiService.mkFilters (List.app ts [t1]) true)).
Proof.
  split.
  - rewrite !getAllNews_url_cases.
    assert (E : JS.join "," ((t1 ++ "," ++ t2) :: rest)
                = JS.join "," (t1 :: t2 :: rest)).
    { destruct rest as [|r rest]; [reflexivity |].
      rewrite !join_cons_cons. now rewrite !append_assoc. }
    rewrite E. reflexivity.
  - rewrite !getAllNews_url_cases, join_snoc_append.
    destruct ts; reflexivity.
Qed.

(** X3. For filters whose tags contain neither a comma nor an ampersand,
    the URL determines the filter: two such filters with the same URL have
    the same tag sequence and the same flag. *)
Theorem getAllNews_url_inj_plain (f g : ApiService.Filters) :
  List.forallb plainTag (ApiService.f_tags f) = true ->
  List.forallb plainTag (ApiService.f_tags g) = true ->
  ApiService.getAllNews_url (Some f) = ApiService.getAllNews_url (Some g) ->
  f = g.
Proof.
  destruct f as [ts v], g as [ts' v'].
  cbn [ApiService.f_tags ApiService.f_onlyVerified].
  intros Hf Hg H.
  apply forallb_plainTag in Hf, Hg.
  destruct Hf as [Hc Ha], Hg as [Hc' Ha'].
  rewrite !getAllNews_url_cases in H. apply news_prefix_inj in H.
  assert (Hamp : forall l,
             List.forallb (fun t => negb (hasChar "&" t)) l = true ->
             hasChar "&" (JS.join "," l) = false)
    by (intros l; apply hasChar_join; reflexivity).
  destruct ts as [|t ts], ts' as [|t' ts'], v, v';
    try discriminate H; try reflexivity.
  - (* tags, flag set on both sides *)
    injection H as H.
    destruct (@cut_at_char "&" (JS.join "," (t :: ts))
                (JS.join "," (t' :: ts')) "onlyConfirmed=true"
                "onlyConfirmed=true" (Hamp _ Ha) (Hamp _ Ha') H) as [HJ _].
    f_equal. apply join_comma_inj; [assumption | assumption | | | exact HJ];
      discriminate.
  - (* flag set on the left only *)
    injection H as H. exfalso.
    exact (@free_neq_containing "&" (JS.join "," (t' :: ts'))
             (JS.join "," (t :: ts)) "onlyConfirmed=true"
             (Hamp _ Ha') (eq_sym H)).
  - (* flag set on the right only *)
    injection H as H. exfalso.
    exact (@free_neq_containing "&" (JS.join "," (t :: ts))
             (JS.join "," (t' :: ts')) "onlyConfirmed=true"
             (Hamp _ Ha) H).
  - (* tags, flag clear on both sides *)
    injection H as H.
    f_equal. apply join_comma_inj; [assumption | assumption | | | exact H];
      discriminate.
Qed.

Lemma getAllNews_url_inj_plain_witness :
  ApiService.mkFilters ["Финансы"; "Финтех"] true
  = ApiService.mkFilters ["Финансы"; "Финтех"] true.
Proof.
  refine (@getAllNews_url_inj_plain
            (ApiService.mkFilters ["Финансы"; "Финтех"] true)
            (ApiService.mkFilters ["Финансы"; "Финтех"] true) _ _ _);
    vm_compute; reflexivity.
Defined.

(** X4. Every selection made from the thirteen labels of the page is
    recovered from its URL: two filters whose tags are among [tags] and whose
    URLs are equal are the same filter. *)
Theorem offered_tags_url_inj (f g : ApiService.Filters) :
  incl (ApiService.f_tags f) NewsPage.tags ->
  incl (ApiService.f_tags g) NewsPage.tags ->
  ApiService.getAllNews_url (Some f) = ApiService.getAllNews_url (Some g) ->
  f = g.
Proof.
  assert (Hplain : forall l, incl l NewsPage.tags ->
                             List.forallb plainTag l = true).
  { intros l Hl. apply forallb_forall. intros t Ht.
    assert (Hall : List.forallb plainTag NewsPage.tags = true)
      by (vm_compute; reflexivity).
    rewrite forallb_forall in Hall. apply Hall, Hl, Ht. }
  intros Hf Hg. apply getAllNews_url_inj_plain; auto.
Qed.

Lemma offered_tags_url_inj_witness :
  ApiService.mkFilters ["Транспорт"] false
  = ApiService.mkFilters ["Транспорт"] false.
Proof.
  refine (@offered_tags_url_inj
            (ApiService.mkFilters ["Транспорт"] false)
            (ApiService.mkFilters ["Транспорт"] false) _ _ eq_refl).
  - intros t [<- | []]. vm_compute. tauto.
  - intros t [<- | []]. vm_compute. tauto.
Defined.

(** X5. The list endpoint and the item endpoint never meet: whatever the
    filter (or none) and whatever the identifier, [getAllNews] and
    [getNews] request different URLs. *)
Theorem list_and_item_urls_differ
    (filters : option ApiService.Filters) (newsId : string) :
  String.eqb (ApiService.getAllNews_url filters)
    (ApiService.getNews_url newsId) = false.
Proof.
  apply String.eqb_neq. intros H.
  assert (E : forall q, ApiService.baseUrl ++ "/news" ++ q
                        = ApiService.getNews_url newsId ->
                        q = "/" ++ newsId)
    by (intros q Hq; apply news_prefix_inj; exact Hq).
  destruct filters as [[ts v]|].
  - rewrite getAllNews_url_cases in H. apply E in H.
    destruct ts, v; discriminate H.
  - specialize (E "" H). discriminate E.
Qed.

(** ** More on the filter form of [NewsPage] *)

Lemma toggles_cons (op : string * bool) (ops : list (string * bool))
    (s : NewsPage.State) :
  NewsPage.toggles (op :: ops) s
  = NewsPage.toggles ops (NewsPage.onTagChange (fst op) (snd op) s).
Proof. reflexivity. Qed.

Lemma onTagChange_frame (tag : string) (isChecked : bool) (s : NewsPage.State) :
  NewsPage.newsList (NewsPage.onTagChange tag isChecked s)
  = NewsPage.newsList s
  /\ NewsPage.subscriptions (NewsPage.onTagChange tag isChecked s)
     = NewsPage.subscriptions s
  /\ NewsPage.onlyConfirmed
       (NewsPage.filtersForm (NewsPage.onTagChange tag isChecked s))
     = NewsPage.onlyConfirmed (NewsPage.filtersForm s).
Proof. destruct isChecked; repeat split. Qed.

Lemma toggles_frame (ops : list (string * bool)) (s : NewsPage.State) :
  NewsPage.newsList (NewsPage.toggles ops s) = NewsPage.newsList s
  /\ NewsPage.subscriptions (NewsPage.toggles ops s)
     = NewsPage.subscriptions s
  /\ NewsPage.onlyConfirmed (NewsPage.filtersForm (NewsPage.toggles ops s))
     = NewsPage.onlyConfirmed (NewsPage.filtersForm s).
Proof.
  revert s. induction ops as [|[tag b] ops IH]; intros s; [repeat split |].
  rewrite toggles_cons. cbn [fst snd].
  destruct (IH (NewsPage.onTagChange tag b s)) as (H1 & H2 & H3).
  destruct (onTagChange_frame tag b s) as (F1 & F2 & F3).
  rewrite H1, H2, H3, F1, F2, F3. repeat split.
Qed.

Lemma onTagChange_form_congr
    (tag : string) (isChecked : bool) (s s' : NewsPage.State) :
  NewsPage.filtersForm s = NewsPage.filtersForm s' ->
  NewsPage.filtersForm (NewsPage.onTagChange tag isChecked s)
  = NewsPage.filtersForm (NewsPage.onTagChange tag isChecked s').
Proof.
  intros H. unfold NewsPage.onTagChange, NewsPage.currentTags.
  destruct isChecked; cbn [NewsPage.setSelectedTags NewsPage.filtersForm];
    now rewrite H.
Qed.

Lemma step_fetch_keeps_form (s : NewsPage.State) (e : NewsPage.Event) :
  (forall tag isChecked, e <> NewsPage.OnTagChange tag isChecked) ->
  NewsPage.filtersForm (NewsPage.step s e) = NewsPage.filtersForm s.
Proof.
  intros Hne. destruct e as [| tag b | | k n]; cbn [NewsPage.step].
  - reflexivity.
  - exfalso. exact (Hne tag b eq_refl).
  - reflexivity.
  - unfold NewsPage.notify.
    destruct (nth_error (NewsPage.subscriptions s) k); [| reflexivity].
    destruct n; reflexivity.
Qed.

(** X6. Only the checkboxes write the form, and they write nothing else:
    after any sequence of activations, submissions, notifications and
    checkbox events the form is what the checkbox events alone produce, and
    a sequence of checkbox events changes neither the held list, nor the
    requests in flight, nor the [onlyConfirmed] control. *)
Theorem form_follows_toggles
    (evs : list NewsPage.Event) (ops : list (string * bool))
    (s : NewsPage.State) :
  NewsPage.filtersForm (NewsPage.run evs s)
  = NewsPage.filtersForm (NewsPage.toggles (togglesOf evs) s)
  /\ NewsPage.newsList (NewsPage.toggles ops s) = NewsPage.newsList s
  /\ NewsPage.subscriptions (NewsPage.toggles ops s)
     = NewsPage.subscriptions s
  /\ NewsPage.onlyConfirmed (NewsPage.filtersForm (NewsPage.toggles ops s))
     = NewsPage.onlyConfirmed (NewsPage.filtersForm s).
Proof.
  split; [| apply toggles_frame].
  assert (G : forall s1 s2,
             NewsPage.filtersForm s1 = NewsPage.filtersForm s2 ->
             NewsPage.filtersForm (NewsPage.run evs s1)
             = NewsPage.filtersForm (NewsPage.toggles (togglesOf evs) s2)).
  { induction evs as [|e evs IH]; intros s1 s2 H; [exact H |].
    unfold NewsPage.run. cbn [List.fold_left]. fold (NewsPage.run evs).
    destruct e as [| tag b | | k n]; cbn [togglesOf].
    - apply IH. rewrite <- H. apply step_fetch_keeps_form. discriminate.
    - rewrite toggles_cons. apply IH. cbn [NewsPage.step fst snd].
      now apply onTagChange_form_congr.
    - apply IH. rewrite <- H. apply step_fetch_keeps_form. discriminate.
    - apply IH. rewrite <- H. apply step_fetch_keeps_form. discriminate. }
  now apply G.
Qed.

Lemma filter_strictNeq_comm (a b : string) (l : list string) :
  List.filter (fun t => JS.strictNeq t a)
    (List.filter (fun t => JS.strictNeq t b) l)
  = List.filter (fun t => JS.strictNeq t b)
      (List.filter (fun t => JS.strictNeq t a) l).
Proof.
  induction l as [|x l IH]; [reflexivity |].
  cbn [List.filter].
  destruct (JS.strictNeq x a) eqn:Ea, (JS.strictNeq x b) eqn:Eb;
    cbn [List.filter]; rewrite ?Ea, ?Eb, IH; reflexivity.
Qed.

(** X7. Unchecking a tag cancels every earlier check of it: a check
    followed by an uncheck of the same tag leaves the component as the
    uncheck alone does, and when the tag was not selected before, the
    selection is back to what it was. *)
Theorem check_then_uncheck (tag : string) (s : NewsPage.State) :
  NewsPage.onTagChange tag false (NewsPage.onTagChange tag true s)
  = NewsPage.onTagChange tag false s
  /\ (~ In tag (NewsPage.currentTags s) ->
      NewsPage.currentTags
        (NewsPage.onTagChange tag false (NewsPage.onTagChange tag true s))
      = NewsPage.currentTags s).
Proof.
  assert (E : NewsPage.onTagChange tag false (NewsPage.onTagChange tag true s)
              = NewsPage.onTagChange tag false s).
  { unfold NewsPage.onTagChange at 1 3. rewrite currentTags_check.
    rewrite filter_app. cbn [List.filter]. rewrite strictNeq_refl.
    rewrite app_nil_r. reflexivity. }
  split; [exact E |].
  intros Habs. rewrite E, currentTags_uncheck.
  now apply filter_strictNeq_absent.
Qed.

Lemma check_then_uncheck_witness :
  NewsPage.currentTags
    (NewsPage.onTagChange "Финтех" false
       (NewsPage.onTagChange "Финтех" true
          (NewsPage.onTagChange "Финансы" true NewsPage.init)))
  = ["Финансы"].
Proof.
  refine (proj2 (check_then_uncheck "Финтех"
                   (NewsPage.onTagChange "Финансы" true NewsPage.init)) _).
  vm_compute. intros [H | []]. discriminate H.
Defined.

(** X8. Unchecking two tags gives the same component in either order. *)
Theorem uncheck_commutes (a b : string) (s : NewsPage.State) :
  NewsPage.onTagChange a false (NewsPage.onTagChange b false s)
  = NewsPage.onTagChange b false (NewsPage.onTagChange a false s).
Proof.
  unfold NewsPage.onTagChange at 1 3. rewrite !currentTags_uncheck.
  rewrite filter_strictNeq_comm. reflexivity.
Qed.

Lemma currentTags_checkAll (ts : list string) (s : NewsPage.State) :
  NewsPage.currentTags (NewsPage.toggles (checkAll ts) s)
  = (NewsPage.currentTags s ++ ts)%list.
Proof.
  revert s. induction ts as [|t ts IH]; intros s.
  - now rewrite app_nil_r.
  - cbn [checkAll List.map]. rewrite toggles_cons. cbn [fst snd].
    fold (checkAll ts). rewrite IH, currentTags_check, <- app_assoc.
    reflexivity.
Qed.

Lemma subscriptions_onFiltersSubmit (s : NewsPage.State) :
  NewsPage.subscriptions (NewsPage.onFiltersSubmit s)
  = (NewsPage.subscriptions s
     ++ [ApiService.getAllNews_url
           (Some (ApiService.mkFilters (NewsPage.currentTags s)
                    (JS.orFalse
                       (NewsPage.onlyConfirmed (NewsPage.filtersForm s)))))])%list.
Proof. reflexivity. Qed.

(** X9. Checked tags are kept in the order of checking, and that order
    reaches the request: checking the tags [ts] one after the other extends
    the selection by [ts], and on a fresh page a submission that follows
    requests [{baseUrl}/news?tags=] with [ts] joined by commas, for every
    non-empty [ts]. *)
Theorem checked_order_reaches_url (ts : list string) (s : NewsPage.State) :
  ts <> [] ->
  NewsPage.currentTags (NewsPage.toggles (checkAll ts) s)
  = (NewsPage.currentTags s ++ ts)%list
  /\ NewsPage.subscriptions
       (NewsPage.onFiltersSubmit
          (NewsPage.toggles (checkAll ts) NewsPage.init))
     = [ApiService.baseUrl ++ "/news?tags=" ++ JS.join "," ts].
Proof.
  intros Hne. split; [apply currentTags_checkAll |].
  rewrite subscriptions_onFiltersSubmit, currentTags_checkAll.
  destruct (toggles_frame (checkAll ts) NewsPage.init) as (_ & Hs & Hc).
  rewrite Hs, Hc. cbn [NewsPage.currentTags NewsPage.init NewsPage.filtersForm
    NewsPage.selectedTags NewsPage.onlyConfirmed NewsPage.subscriptions
    JS.orArray JS.orFalse orb List.app].
  rewrite getAllNews_url_cases.
  destruct ts as [|t ts]; [congruence | reflexivity].
Qed.

Lemma checked_order_reaches_url_witness :
  NewsPage.subscriptions
    (NewsPage.onFiltersSubmit
       (NewsPage.toggles (checkAll ["Транспорт"; "Финтех"; "Финансы"])
          NewsPage.init))
  = [ApiService.baseUrl ++ "/news?tags=Транспорт,Финтех,Финансы"].
Proof.
  refine (proj2 (@checked_order_reaches_url
                   ["Транспорт"; "Финтех"; "Финансы"] NewsPage.init _)).
  discriminate.
Defined.

(** X10. Nothing enters the selection but what was checked: after any
    sequence of checkbox events, every selected tag was selected at the
    start or is the tag of a check in the sequence. *)
Theorem selected_was_checked
    (ops : list (string * bool)) (s : NewsPage.State) (t : string) :
  In t (NewsPage.currentTags (NewsPage.toggles ops s)) ->
  In t (NewsPage.currentTags s) \/ In (t, true) ops.
Proof.
  revert s. induction ops as [|[tag b] ops IH]; intros s Hin.
  - now left.
  - rewrite toggles_cons in Hin. cbn [fst snd] in Hin.
    destruct (IH _ Hin) as [H | H]; [| right; now right].
    destruct b.
    + rewrite currentTags_check in H. apply in_app_iff in H.
      destruct H as [H | [<- | []]]; [now left | right; now left].
    + rewrite currentTags_uncheck in H. apply filter_In in H.
      left. exact (proj1 H).
Qed.

Lemma selected_was_checked_witness :
  In "Финтех" (NewsPage.currentTags NewsPage.init)
  \/ In ("Финтех", true) [("Финансы", true); ("Финтех", true); ("Финансы", false)].
Proof.
  refine (@selected_was_checked
            [("Финансы", true); ("Финтех", true); ("Финансы", false)]
            NewsPage.init "Финтех" _).
  vm_compute. left. reflexivity.
Defined.

(** ** More on the list held by [NewsPage] *)

Lemma nth_error_app_plus {A} (l r : list A) (k : nat) :
  nth_error (l ++ r)%list (List.length l + k) = nth_error r k.
Proof. induction l as [|x l IH]; simpl; [reflexivity | exact IH]. Qed.

Lemma dropAt_app_plus {A} (l r : list A) (k : nat) :
  NewsPage.dropAt (List.length l + k) (l ++ r)%list
  = (l ++ NewsPage.dropAt k r)%list.
Proof. induction l as [|x l IH]; simpl; [reflexivity | now rewrite IH]. Qed.

Lemma notify_next_valid
    (k : nat) (items : list News) (url : string) (s : NewsPage.State) :
  nth_error (NewsPage.subscriptions s) k = Some url ->
  NewsPage.notify k (Http.Next items) s
  = NewsPage.mkState (Some items) (NewsPage.filtersForm s)
      (NewsPage.dropAt k (NewsPage.subscriptions s)).
Proof. intros H. unfold NewsPage.notify. now rewrite H. Qed.

Lemma toggles_form_congr
    (ops : list (string * bool)) (s s' : NewsPage.State) :
  NewsPage.filtersForm s = NewsPage.filtersForm s' ->
  NewsPage.filtersForm (NewsPage.toggles ops s)
  = NewsPage.filtersForm (NewsPage.toggles ops s').
Proof.
  revert s s'. induction ops as [|[tag b] ops IH]; intros s s' H; [exact H |].
  rewrite !toggles_cons. apply IH. now apply onTagChange_form_congr.
Qed.

Lemma subscriptions_two_submits
    (s : NewsPage.State) (ops : list (string * bool)) :
  exists u1 u2 : string,
    NewsPage.subscriptions
      (NewsPage.onFiltersSubmit
         (NewsPage.toggles ops (NewsPage.onFiltersSubmit s)))
    = (NewsPage.subscriptions s ++ [u1; u2])%list.
Proof.
  eexists. eexists.
  rewrite subscriptions_onFiltersSubmit.
  destruct (toggles_frame ops (NewsPage.onFiltersSubmit s)) as (_ & Hs & _).
  rewrite Hs, subscriptions_onFiltersSubmit, <- app_assoc.
  reflexivity.
Qed.

(** X11. Overlapping submissions are not ordered by the page: with two
    submissions in flight (and any checkbox events between them), the list
    held in the end is the one that arrived last. When the answer to the
    first submission arrives after the answer to the second, the page holds
    the answer to the first while the form shows the later selection; in
    both orders nothing of the two stays in flight. *)
Theorem last_response_wins
    (s : NewsPage.State) (ops : list (string * bool)) (a b : list News) :
  let n := List.length (NewsPage.subscriptions s) in
  let s2 := NewsPage.onFiltersSubmit
              (NewsPage.toggles ops (NewsPage.onFiltersSubmit s)) in
  NewsPage.notify n (Http.Next a) (NewsPage.notify (S n) (Http.Next b) s2)
  = NewsPage.mkState (Some a)
      (NewsPage.filtersForm (NewsPage.toggles ops s))
      (NewsPage.subscriptions s)
  /\ NewsPage.notify n (Http.Next b) (NewsPage.notify n (Http.Next a) s2)
     = NewsPage.mkState (Some b)
         (NewsPage.filtersForm (NewsPage.toggles ops s))
         (NewsPage.subscriptions s).
Proof.
  intros n s2.
  destruct (subscriptions_two_submits s ops) as (u1 & u2 & Hsubs).
  fold s2 in Hsubs.
  assert (Hform : NewsPage.filtersForm s2
                  = NewsPage.filtersForm (NewsPage.toggles ops s)).
  { unfold s2, NewsPage.onFiltersSubmit at 1, NewsPage.subscribe.
    cbn [NewsPage.filtersForm].
    apply toggles_form_congr. reflexivity. }
  assert (H0 : forall (l : list string) (x : string) (r : list string),
             nth_error (l ++ x :: r)%list (List.length l) = Some x).
  { intros l x r. rewrite <- (Nat.add_0_r (List.length l)).
    now rewrite nth_error_app_plus. }
  assert (D0 : forall (l : list string) (x : string) (r : list string),
             NewsPage.dropAt (List.length l) (l ++ x :: r)%list
             = (l ++ r)%list).
  { intros l x r. rewrite <- (Nat.add_0_r (List.length l)).
    now rewrite dropAt_app_plus. }
  assert (H1 : nth_error (NewsPage.subscriptions s2) (S n) = Some u2).
  { rewrite Hsubs. unfold n. rewrite <- Nat.add_1_r.
    now rewrite nth_error_app_plus. }
  assert (D1 : NewsPage.dropAt (S n) (NewsPage.subscriptions s2)
               = (NewsPage.subscriptions s ++ [u1])%list).
  { rewrite Hsubs. unfold n. rewrite <- Nat.add_1_r.
    now rewrite dropAt_app_plus. }
  split.
  - rewrite (notify_next_valid _ b _ H1), D1.
    rewrite (@notify_next_valid n a u1);
      cbn [NewsPage.subscriptions NewsPage.filtersForm].
    + unfold n. rewrite D0, app_nil_r, Hform. reflexivity.
    + apply H0.
  - rewrite (@notify_next_valid n a u1 s2); [| rewrite Hsubs; apply H0].
    rewrite Hsubs. unfold n at 2. rewrite D0.
    rewrite (@notify_next_valid n b u2);
      cbn [NewsPage.subscriptions NewsPage.filtersForm].
    + unfold n. rewrite D0, app_nil_r, Hform. reflexivity.
    + apply H0.
Qed.

Lemma step_newsList (s : NewsPage.State) (e : NewsPage.Event) :
  NewsPage.newsList (NewsPage.step s e) = NewsPage.newsList s
  \/ exists (k : nat) (items : list News),
       e = NewsPage.Notify k (Http.Next items)
       /\ NewsPage.newsList (NewsPage.step s e) = Some items.
Proof.
  destruct e as [| tag b | | k n]; cbn [NewsPage.step].
  - now left.
  - left. apply onTagChange_frame.
  - now left.
  - unfold NewsPage.notify.
    destruct (nth_error (NewsPage.subscriptions s) k); [| now left].
    destruct n as [items | e]; [| now left].
    right. exists k, items. now split.
Qed.

(** X12. The page holds no list of its own making and never clears one:
    after any sequence of events the held list is the one held at the start
    or the sequence delivered by one of the successful notifications, so a
    page that holds a list keeps holding one (a new submission shows the
    old list until an answer arrives). *)
Theorem held_list_was_delivered (evs : list NewsPage.Event) (s : NewsPage.State) :
  (NewsPage.newsList (NewsPage.run evs s) = NewsPage.newsList s
   \/ exists (k : nat) (items : list News),
        In (NewsPage.Notify k (Http.Next items)) evs
        /\ NewsPage.newsList (NewsPage.run evs s) = Some items)
  /\ (forall l : list News,
        NewsPage.newsList s = Some l ->
        exists l' : list News,
          NewsPage.newsList (NewsPage.run evs s) = Some l')
  /\ NewsPage.newsList (NewsPage.onFiltersSubmit s) = NewsPage.newsList s.
Proof.
  assert (G : forall s0,
             NewsPage.newsList (NewsPage.run evs s0) = NewsPage.newsList s0
             \/ exists (k : nat) (items : list News),
                  In (NewsPage.Notify k (Http.Next items)) evs
                  /\ NewsPage.newsList (NewsPage.run evs s0) = Some items).
  { induction evs as [|e evs IH]; intros s0; [now left |].
    change (NewsPage.run (e :: evs) s0)
      with (NewsPage.run evs (NewsPage.step s0 e)).
    destruct (IH (NewsPage.step s0 e)) as [H | (k & items & Hin & H)].
    - rewrite H. destruct (step_newsList s0 e) as [H' | (k & items & -> & H')].
      + now left.
      + right. exists k, items. split; [now left | exact H'].
    - right. exists k, items. split; [now right | exact H]. }
  split; [apply G | split; [| reflexivity]].
  intros l Hl. destruct (G s) as [H | (k & items & _ & H)].
  - exists l. now rewrite H.
  - now exists items.
Qed.

Lemma held_list_was_delivered_witness :
  exists l' : list News,
    NewsPage.newsList
      (NewsPage.run
         [NewsPage.OnTagChange "Финансы" true; NewsPage.OnFiltersSubmit;
          NewsPage.Notify 0 (Http.Error Http.NotFound)]
         (NewsPage.mkState (Some Fixture.newsList)
            (NewsPage.mkForm (Some []) (Some false)) []))
    = Some l'.
Proof.
  refine (proj1 (proj2
            (held_list_was_delivered
               [NewsPage.OnTagChange "Финансы" true; NewsPage.OnFiltersSubmit;
                NewsPage.Notify 0 (Http.Error Http.NotFound)]
               (NewsPage.mkState (Some Fixture.newsList)
                  (NewsPage.mkForm (Some []) (Some false)) [])))
            Fixture.newsList _).
  reflexivity.
Defined.

(** X13. A submission is the request of activation exactly when nothing is
    selected: [onFiltersSubmit] leaves the component as [ngOnInit] would
    if and only if the selection is empty (or the control is null) and the
    [onlyConfirmed] control is false (or null). *)
Theorem submit_is_activation_iff (s : NewsPage.State) :
  NewsPage.onFiltersSubmit s = NewsPage.ngOnInit s
  <-> NewsPage.currentTags s = []
      /\ JS.orFalse (NewsPage.onlyConfirmed (NewsPage.filtersForm s)) = false.
Proof.
  split.
  - intros H.
    assert (Hs : NewsPage.subscriptions (NewsPage.onFiltersSubmit s)
                 = NewsPage.subscriptions (NewsPage.ngOnInit s))
      by now rewrite H.
    rewrite subscriptions_onFiltersSubmit in Hs.
    unfold NewsPage.ngOnInit, NewsPage.subscribe in Hs.
    cbn [NewsPage.subscriptions] in Hs.
    apply app_inv_head in Hs.
    apply (f_equal (fun l => List.hd "" l)) in Hs. cbn [List.hd] in Hs.
    apply getAllNews_url_unfiltered_inv. exact Hs.
  - intros [Ht Hv]. unfold NewsPage.onFiltersSubmit. cbv zeta.
    rewrite Ht, Hv. reflexivity.
Qed.

Lemma submit_is_activation_iff_witness :
  NewsPage.onFiltersSubmit
    (NewsPage.mkState None (NewsPage.mkForm None None) [])
  = NewsPage.ngOnInit (NewsPage.mkState None (NewsPage.mkForm None None) []).
Proof.
  exact (proj2 (submit_is_activation_iff
                  (NewsPage.mkState None (NewsPage.mkForm None None) []))
           (conj eq_refl eq_refl)).
Defined.

(** ** More on [NewsDetailsPage] *)

Lemma detail_respond_next
    (http : Http.Client) (url : string) (item : News)
    (s : NewsDetailsPage.State) :
  NewsDetailsPage.subscriptions s = [url] ->
  Http.getItem http url = Http.Next item ->
  NewsDetailsPage.respond http 0 s
  = NewsDetailsPage.mkState (NewsDetailsPage.newsId s) (Some item) [].
Proof.
  intros Hs Hget. unfold NewsDetailsPage.respond, NewsDetailsPage.notify.
  rewrite Hs. cbn [nth_error]. now rewrite Hget.
Qed.

Lemma detail_ngOnInit_truthy (newsId : string) :
  JS.truthy newsId = true ->
  NewsDetailsPage.ngOnInit (Some newsId) NewsDetailsPage.init
  = NewsDetailsPage.mkState (Some newsId) None
      [ApiService.getNews_url newsId].
Proof. intros H. unfold NewsDetailsPage.ngOnInit. now rewrite H. Qed.

(** X14. With a non-empty [id] in the route, [ngOnInit] of
    [NewsDetailsPage] puts exactly the request of [getNews] for that [id]
    in flight, nothing held yet; when the remote API answers it with an
    item the page holds that item, and no later notification changes the
    page. *)
Theorem detail_fetch_success
    (http : Http.Client) (newsId : string) (item : News)
    (ns : list (nat * Http.Notification News)) :
  JS.truthy newsId = true ->
  Http.getItem http (ApiService.getNews_url newsId) = Http.Next item ->
  NewsDetailsPage.ngOnInit (Some newsId) NewsDetailsPage.init
  = NewsDetailsPage.mkState (Some newsId) None
      [ApiService.baseUrl ++ "/news/" ++ newsId]
  /\ NewsDetailsPage.respond http 0
       (NewsDetailsPage.ngOnInit (Some newsId) NewsDetailsPage.init)
     = NewsDetailsPage.mkState (Some newsId) (Some item) []
  /\ NewsDetailsPage.run ns
       (NewsDetailsPage.respond http 0
          (NewsDetailsPage.ngOnInit (Some newsId) NewsDetailsPage.init))
     = NewsDetailsPage.mkState (Some newsId) (Some item) [].
Proof.
  intros Ht Hget. rewrite (detail_ngOnInit_truthy _ Ht).
  split; [reflexivity |].
  rewrite (@detail_respond_next http (ApiService.getNews_url newsId) item
             (NewsDetailsPage.mkState (Some newsId) None
                [ApiService.getNews_url newsId]) eq_refl Hget).
  split; [reflexivity |].
  now apply detail_run_idle.
Qed.

Lemma detail_fetch_success_witness :
  NewsDetailsPage.respond
    (Fixture.client [Fixture.item1; Fixture.item2; Fixture.item3]) 0
    (NewsDetailsPage.ngOnInit (Some "3") NewsDetailsPage.init)
  = NewsDetailsPage.mkState (Some "3") (Some Fixture.item3) [].
Proof.
  refine (proj1 (proj2
            (@detail_fetch_success
               (Fixture.client [Fixture.item1; Fixture.item2; Fixture.item3])
               "3" Fixture.item3 [] _ _))); vm_compute; reflexivity.
Defined.

(** X15. A lookup that fails, NotFound included, is not shown and not
    retried: after the error the page holds no item and has nothing in
    flight, which is the state of a page that never asked, and it stays
    so under every later notification. *)
Theorem detail_fetch_failure
    (newsId : string) (e : Http.HttpErrorResponse)
    (ns : list (nat * Http.Notification News)) :
  JS.truthy newsId = true ->
  NewsDetailsPage.notify 0 (Http.Error e)
    (NewsDetailsPage.ngOnInit (Some newsId) NewsDetailsPage.init)
  = NewsDetailsPage.mkState (Some newsId) None []
  /\ NewsDetailsPage.run ns
       (NewsDetailsPage.notify 0 (Http.Error e)
          (NewsDetailsPage.ngOnInit (Some newsId) NewsDetailsPage.init))
     = NewsDetailsPage.mkState (Some newsId) None []
  /\ NewsDetailsPage.viewState
       (NewsDetailsPage.notify 0 (Http.Error e)
          (NewsDetailsPage.ngOnInit (Some newsId) NewsDetailsPage.init))
     = NewsDetailsPage.Empty.
Proof.
  intros Ht. rewrite (detail_ngOnInit_truthy _ Ht).
  split; [reflexivity | split; [| reflexivity]].
  now apply detail_run_idle.
Qed.

Lemma detail_fetch_failure_witness :
  NewsDetailsPage.notify 0 (Http.Error Http.NotFound)
    (NewsDetailsPage.ngOnInit (Some "missing-id") NewsDetailsPage.init)
  = NewsDetailsPage.mkState (Some "missing-id") None [].
Proof.
  refine (proj1 (@detail_fetch_failure "missing-id" Http.NotFound [] _)).
  reflexivity.
Defined.

(** X16. [ngOnInit] of [NewsDetailsPage] asks for an item exactly when the
    route parameter is a non-empty string: the empty string is treated as
    an absent parameter, and then the page holds no item whatever
    notifications follow. *)
Theorem detail_asks_iff_nonempty_id
    (param : option string) (ns : list (nat * Http.Notification News)) :
  (NewsDetailsPage.subscriptions
     (NewsDetailsPage.ngOnInit param NewsDetailsPage.init) = []
   <-> param = None \/ param = Some "")
  /\ NewsDetailsPage.run ns
       (NewsDetailsPage.ngOnInit (Some "") NewsDetailsPage.init)
     = NewsDetailsPage.mkState (Some "") None [].
Proof.
  split; [| now apply detail_run_idle].
  destruct param as [[|c r]|]; cbn; split; auto; try discriminate.
  intros [H | H]; discriminate H.
Qed.

Lemma detail_asks_iff_nonempty_id_witness :
  NewsDetailsPage.subscriptions
    (NewsDetailsPage.ngOnInit (Some "") NewsDetailsPage.init) = [].
Proof.
  exact (proj2 (proj1 (detail_asks_iff_nonempty_id (Some "") []))
           (or_intror eq_refl)).
Defined.
